(** * Implied-volatility core: Black-Scholes-Merton pricer and its inversion

    A shallow embedding of [black_scholes_merton.py]:

    - [option_price] is the closed-form pricer.  It is written once, against
      the interface [PyNum] of the numeric operations the Python text uses,
      and read in two ways: over the exact reals (the mathematics the formula
      denotes, with [ln], [exp], [sqrt] and the standard normal distribution
      function), and over IEEE binary64 (what the interpreter executes, with
      numpy's and scipy's routines left as parameters).
    - [implied_volatility] is the solver wrapper around [scipy.optimize.brentq]:
      the degenerate-input guard, the target closure, the single root search
      and the [except (ValueError, RuntimeError)] handler.  It runs over
      binary64 in a small exception-and-log monad, so that which calls were
      made is part of the result.

    numpy, scipy and the C library are not part of the repository: their
    routines are parameters here ([Libm], [root_finder]), and whatever is
    assumed of them is a hypothesis written in the statement that needs it. *)

From Stdlib Require Import Floats ZArith String List Bool.
From Stdlib Require Import Reals Lra.
Import ListNotations.

Set Warnings "-inexact-float".

(* ================================================================== *)
(** * Part I.  The program *)
(* ================================================================== *)

(** ** Python outcomes *)

(** The two exception classes the source names. *)
Inductive exn : Type :=
| ValueError
| RuntimeError.

Definition exn_eqb (e1 e2 : exn) : bool :=
  match e1, e2 with
  | ValueError, ValueError => true
  | RuntimeError, RuntimeError => true
  | _, _ => false
  end.

(** A call either returns a value or raises. *)
Inductive outcome (A : Type) : Type :=
| Return (a : A)
| Raise (e : exn).

Arguments Return {A} a.
Arguments Raise {A} e.

(** ** The numeric interface of the pricer

    Exactly the operations that occur in [option_price]:
    [+ - * /], unary minus, [x ** 2], the literal [0.5], [np.log],
    [np.exp], [np.sqrt] and [norm.cdf]. *)
Class PyNum (F : Type) : Type := {
  add : F -> F -> F;
  sub : F -> F -> F;
  mul : F -> F -> F;
  div : F -> F -> F;
  neg : F -> F;
  square : F -> F;
  half : F;
  np_log : F -> F;
  np_exp : F -> F;
  np_sqrt : F -> F;
  norm_cdf : F -> F
}.

Declare Scope py_scope.
Delimit Scope py_scope with py.
Infix "+" := add : py_scope.
Infix "-" := sub : py_scope.
Infix "*" := mul : py_scope.
Infix "/" := div : py_scope.
Notation "- x" := (neg x) : py_scope.
Notation "x ** 2" := (square x) (at level 1, format "x ** 2") : py_scope.

(** ** [option_price] *)

Section Pricer.
Context {F : Type} {num : PyNum F}.
Local Open Scope py_scope.

(** Lines 9 and 10 of the source. *)
Definition d1_of (S K T r sigma q : F) : F :=
  (np_log (S / K) + (r - q + half * sigma ** 2) * T) / (sigma * np_sqrt T).

Definition d2_of (S K T r sigma q : F) : F :=
  d1_of S K T r sigma q - sigma * np_sqrt T.

(** [d1] and [d2] are computed first; the option type is looked at after. *)
Definition option_price (S K T r sigma q : F) (option_type : string) : outcome F :=
  let d1 := d1_of S K T r sigma q in
  let d2 := d2_of S K T r sigma q in
  if String.eqb option_type "c" then
    Return (S * np_exp (- q * T) * norm_cdf d1 - K * np_exp (- r * T) * norm_cdf d2)
  else if String.eqb option_type "p" then
    Return (K * np_exp (- r * T) * norm_cdf (- d2) - S * np_exp (- q * T) * norm_cdf (- d1))
  else
    Raise ValueError.

End Pricer.

(** ** The binary64 reading

    Python floats are IEEE binary64 values: Rocq's primitive [float], with its
    single [nan].  [+ - * /], unary minus, [<=] and [np.sqrt] are the IEEE
    operations.  [np.log], [np.exp], [norm.cdf] and the C [pow] behind [**]
    are library routines whose rounding IEEE 754 does not fix: they are the
    fields of a [Libm].

    Arithmetic does not raise.  The application hands [S], [K], [T] and
    [market_price] over as [numpy.float64] scalars (they come out of a pandas
    frame), and on those a division by zero yields [inf] or [nan] with a
    warning.  On plain Python floats [S / K] would raise [ZeroDivisionError]
    for [K = 0]; the specification's data model has the strike positive. *)
Record Libm : Type := {
  libm_log : float -> float;
  libm_exp : float -> float;
  libm_pow : float -> float -> float;
  scipy_norm_cdf : float -> float
}.

Definition binary64 (lib : Libm) : PyNum float := {|
  add := PrimFloat.add;
  sub := PrimFloat.sub;
  mul := PrimFloat.mul;
  div := PrimFloat.div;
  neg := PrimFloat.opp;
  square := fun x => libm_pow lib x 2%float;
  half := 0.5%float;
  np_log := libm_log lib;
  np_exp := libm_exp lib;
  np_sqrt := PrimFloat.sqrt;
  norm_cdf := scipy_norm_cdf lib
|}.

(** ** Calls as effects

    What a call of [implied_volatility] does besides returning: it may invoke
    the pricer and it may start a root search.  Both are recorded, in order,
    in a log that is threaded through the computation; a raised exception
    keeps the log written so far. *)
Inductive event : Type :=
| PricerCall (sigma : float)
| RootSearch (a b xtol : float) (maxiter : Z).

Definition M (A : Type) : Type := list event -> outcome A * list event.

Definition ret {A : Type} (a : A) : M A := fun log => (Return a, log).

Definition lift {A : Type} (o : outcome A) : M A := fun log => (o, log).

Definition bind {A B : Type} (m : M A) (k : A -> M B) : M B :=
  fun log =>
    match m log with
    | (Return a, log') => k a log'
    | (Raise e, log') => (Raise e, log')
    end.

Definition emit (ev : event) : M unit := fun log => (Return tt, log ++ [ev]).

(** [try: body except classes: handler]. *)
Definition try_except {A : Type} (body : M A) (classes : list exn) (handler : M A) : M A :=
  fun log =>
    match body log with
    | (Return a, log') => (Return a, log')
    | (Raise e, log') =>
        if existsb (exn_eqb e) classes then handler log' else (Raise e, log')
    end.

Notation "x <- m ;; k" := (bind m (fun x => k))
  (at level 61, m at next level, right associativity).

(** ** The root finder

    [scipy.optimize.brentq(f, a, b, xtol=..., maxiter=...)] is a deterministic
    procedure whose only access to [f] is to evaluate it.  Such a procedure is
    a decision tree: it stops with a root or an exception, or asks for the
    value of [f] at a point and continues from the answer.  The tree is
    well-founded because the search is bounded by [maxiter].  An exception
    raised by [f] leaves the search at once, as it does in Python. *)
Inductive search : Type :=
| Stop (result : outcome float)
| Ask (x : float) (next : float -> search).

Definition root_finder : Type := float -> float -> float -> Z -> search.

Fixpoint run_search (f : float -> M float) (s : search) : M float :=
  match s with
  | Stop result => lift result
  | Ask x next => y <- f x ;; run_search f (next y)
  end.

(** The same search against a function that neither raises nor logs. *)
Fixpoint run_pure (g : float -> float) (s : search) : outcome float :=
  match s with
  | Stop result => result
  | Ask x next => run_pure g (next (g x))
  end.

(** ** [implied_volatility] *)

Section Solver.
Variable lib : Libm.
Variable brentq : root_finder.
Local Open Scope float_scope.

(** A call of [option_price] from the solver. *)
Definition call_option_price (S K T r sigma q : float) (option_type : string) : M float :=
  _ <- emit (PricerCall sigma) ;;
  lift (@option_price float (binary64 lib) S K T r sigma q option_type).

(** The closure [target_fn] of lines 32 to 35. *)
Definition target_fn (S K T r q market_price : float) (option_type : string)
  (sigma : float) : M float :=
  p <- call_option_price S K T r sigma q option_type ;;
  ret (p - market_price).

Definition call_brentq (f : float -> M float) (a b xtol : float) (maxiter : Z) : M float :=
  _ <- emit (RootSearch a b xtol maxiter) ;;
  run_search f (brentq a b xtol maxiter).

(** Lines 30 to 40.  [np.nan] is the binary64 [nan]. *)
Definition implied_volatility (S K T r q market_price : float) (option_type : string)
  (tol : float) (max_iter : Z) : M float :=
  if (T <=? 0) || (market_price <=? 0) then ret nan
  else
    try_except
      (call_brentq (target_fn S K T r q market_price option_type) 1e-6 200 tol max_iter)
      [ValueError; RuntimeError]
      (ret nan).

(** The signature's defaults: [option_type="c"], [tol=1e-6], [max_iter=100]. *)
Definition implied_volatility_default (S K T r q market_price : float) : M float :=
  implied_volatility S K T r q market_price "c" 1e-6 100.

End Solver.

(** ** The exact-real reading

    Over [R] the operations are the field operations, [ln], [exp], [sqrt],
    and [norm.cdf] is the distribution function of the standard normal law:
    one half plus the integral of its density from [0]. *)
Section ExactReals.
Local Open Scope R_scope.





End ExactReals.


(** ** The Black-Scholes-Merton value, as the specification words it

    These definitions follow the text of the specification (section 4.1), not
    the source; [option_price] is compared with them below. *)
Section SpecFormula.
Local Open Scope R_scope.
Variables spot strike time_to_expiration risk_free_rate volatility dividend_yield : R.





End SpecFormula.

(** ** What is assumed of the root finder

    scipy documents that [brentq] needs [f(a)] and [f(b)] of opposite signs and
    raises [ValueError] otherwise, and it returns a root only after it has
    evaluated [f].  The two statements are hypotheses of the theorems that
    need them, never of the embedding. *)
Definition same_sign (ya yb : float) : bool :=
  (((0 <? ya) && (0 <? yb)) || ((ya <? 0) && (yb <? 0)))%float.

Definition rejects_same_sign (brentq : root_finder) : Prop :=
  forall (g : float -> float) (a b xtol : float) (maxiter : Z),
    same_sign (g a) (g b) = true ->
    run_pure g (brentq a b xtol maxiter) = Raise ValueError.

Definition evaluates_before_returning (brentq : root_finder) : Prop :=
  forall (a b xtol : float) (maxiter : Z) (x : float),
    brentq a b xtol maxiter <> Stop (Return x).

(** ** A sample library

    Plain binary64 implementations of the library routines and a bisection
    root finder.  Nothing below is proved about numpy or scipy through them:
    the theorems quantify over every [Libm] and every [root_finder].  They
    make the embedding executable, so that it can be run on the inputs the
    specification names. *)
Module Sample.
Local Open Scope float_scope.

(** Partial sums of the exponential series, term by term. *)
Fixpoint exp_series (n : nat) (x term sum k : float) : float :=
  match n with
  | O => sum
  | S n' => let term' := term * x / k in exp_series n' x term' (sum + term') (k + 1)
  end.

Fixpoint repeat_square (n : nat) (y : float) : float :=
  match n with
  | O => y
  | S n' => repeat_square n' (y * y)
  end.

(** [exp x] as [(exp (x / 1024)) ^ 1024]. *)
Definition exp64 (x : float) : float :=
  repeat_square 10 (exp_series 30 (x / 1024) 1 1 1).

(** [log x] by Halley's iteration on [exp]. *)
Fixpoint log_iter (n : nat) (x y : float) : float :=
  match n with
  | O => y
  | S n' => let e := exp64 y in log_iter n' x (y + 2 * (x - e) / (x + e))
  end.

Definition log64 (x : float) : float :=
  if x <=? 0 then nan else log_iter 40 x 0.

Definition pow64 (x y : float) : float :=
  if y =? 2 then x * x else exp64 (y * log64 x).

(** [Phi x = 1/2 + density x * (x + x^3/3 + x^5/(3*5) + ...)], cut off in the tails. *)
Fixpoint cdf_series (n : nat) (x2 term sum k : float) : float :=
  match n with
  | O => sum
  | S n' => let term' := term * x2 / k in cdf_series n' x2 term' (sum + term') (k + 2)
  end.

Definition cdf64 (x : float) : float :=
  if x <? -8 then 0
  else if 8 <? x then 1
  else 0.5 + exp64 (- (x * x) / 2) / PrimFloat.sqrt (2 * 0x1.921fb54442d18p+1)
             * cdf_series 200 (x * x) x x 3.

Definition lib : Libm := {|
  libm_log := log64;
  libm_exp := exp64;
  libm_pow := pow64;
  scipy_norm_cdf := cdf64
|}.

(** Bisection on a bracket whose end values differ in sign. *)
Fixpoint bisect_loop (n : nat) (a ya b xtol : float) : search :=
  match n with
  | O => Stop (Raise RuntimeError)
  | S n' =>
      let m := (a + b) / 2 in
      Ask m (fun ym =>
        if (ym =? 0) || (abs (b - a) / 2 <? xtol) then Stop (Return m)
        else if same_sign ym ya then bisect_loop n' m ym b xtol
        else bisect_loop n' a ya m xtol)
  end.

Definition bisect : root_finder := fun a b xtol maxiter =>
  if xtol <=? 0 then Stop (Raise ValueError)
  else
    Ask a (fun ya =>
    Ask b (fun yb =>
      if same_sign ya yb then Stop (Raise ValueError)
      else if ya =? 0 then Stop (Return a)
      else if yb =? 0 then Stop (Return b)
      else bisect_loop (Z.to_nat maxiter) a ya b xtol)).

End Sample.

(** ** Vocabulary of the statements *)

(** A search against a function that may raise and does not log. *)
Fixpoint run_outcome (g : float -> outcome float) (s : search) : outcome float :=
  match s with
  | Stop result => result
  | Ask x next =>
      match g x with
      | Return y => run_outcome g (next y)
      | Raise e => Raise e
      end
  end.

Section SolverVocabulary.
Local Open Scope float_scope.
Variable lib : Libm.
Variable brentq : root_finder.
Variables S K T r q market_price : float.
Variable option_type : string.

(** What [target_fn] computes at [sigma], its log apart. *)
Definition target_outcome (sigma : float) : outcome float :=
  match @option_price float (binary64 lib) S K T r sigma q option_type with
  | Return p => Return (p - market_price)
  | Raise e => Raise e
  end.

(** How the one search of [implied_volatility] ends. *)
Definition search_outcome (tol : float) (max_iter : Z) : outcome float :=
  run_outcome target_outcome (brentq 1e-6 200 tol max_iter).

(** The target has values of one strict sign at both ends of the bracket. *)
Definition no_sign_change : Prop :=
  exists ya yb : float,
    target_outcome 1e-6 = Return ya /\
    target_outcome 200 = Return yb /\
    same_sign ya yb = true.

(** The guard of line 30 does not fire. *)
Definition non_degenerate : Prop :=
  (T <=? 0) || (market_price <=? 0) = false.

End SolverVocabulary.




(* ================================================================== *)
(** * Part II.  Properties *)
(* ================================================================== *)

(** ** The pricer, in any arithmetic *)

Section PricerFacts.
Context {F : Type} {num : PyNum F}.
Local Open Scope py_scope.



Lemma option_price_other (S K T r sigma q : F) (option_type : string) :
  option_type <> "c"%string -> option_type <> "p"%string ->
  option_price S K T r sigma q option_type = Raise ValueError.
Proof.
  intros Hc Hp. unfold option_price.
  apply String.eqb_neq in Hc. apply String.eqb_neq in Hp.
  rewrite Hc, Hp. reflexivity.
Qed.

End PricerFacts.

(** ** The standard normal distribution function *)

Section RealAnalysis.
Local Open Scope R_scope.






(** ** The call price as a function of the volatility *)











End RealAnalysis.

(** ** Claims about the pricer *)

Section PricerClaims.
Local Open Scope R_scope.







(** C5.  With an option type other than ["c"] and ["p"], [option_price]
    raises [ValueError]; it returns no number.  This holds in every
    arithmetic the pricer is read in. *)
Theorem invalid_option_type_raises :
  forall (F : Type) (num : PyNum F) (S K T r sigma q : F) (option_type : string),
    option_type <> "c"%string ->
    option_type <> "p"%string ->
    option_price S K T r sigma q option_type = Raise ValueError.
Proof. intros F num S K T r sigma q option_type. apply option_price_other. Qed.

Lemma invalid_option_type_raises_witness :
  @option_price float (binary64 Sample.lib) 100%float 100%float 1%float 0.05%float
    0.2%float 0%float "x"
  = Raise ValueError.
Proof.
  apply (invalid_option_type_raises float (binary64 Sample.lib)); discriminate.
Defined.





End PricerClaims.

(** ** The solver's control flow *)

(** On binary64, [0 < x] excludes [x <= 0]; [nan] satisfies neither. *)
Lemma positive_not_le_zero (x : float) :
  (0 <? x)%float = true -> (x <=? 0)%float = false.
Proof.
  rewrite ltb_spec, leb_spec.
  replace (Prim2SF 0) with (S754_zero false) by reflexivity.
  destruct (Prim2SF x) as [s | s | | s m e]; simpl;
    try discriminate; destruct s; simpl; try discriminate; reflexivity.
Qed.

Lemma positive_is_non_degenerate (T market_price : float) :
  (0 <? T)%float = true -> (0 <? market_price)%float = true ->
  non_degenerate T market_price.
Proof.
  intros HT Hm. unfold non_degenerate.
  rewrite (positive_not_le_zero T HT), (positive_not_le_zero market_price Hm).
  reflexivity.
Qed.

Section SolverFacts.
Local Open Scope float_scope.
Variable lib : Libm.
Variable brentq : root_finder.
Variables S K T r q market_price : float.
Variable option_type : string.

Lemma target_fn_run (sigma : float) (log : list event) :
  target_fn lib S K T r q market_price option_type sigma log
  = (target_outcome lib S K T r q market_price option_type sigma,
     log ++ [PricerCall sigma]).
Proof.
  unfold target_fn, call_option_price, target_outcome, bind, emit, lift, ret.
  destruct (option_price S K T r sigma q option_type); reflexivity.
Qed.

(** A search run against [target_fn] ends as [run_outcome] says and adds
    pricer calls to the log, nothing else. *)
Lemma run_search_target (s : search) :
  forall log, exists sigmas : list float,
    run_search (target_fn lib S K T r q market_price option_type) s log
    = (run_outcome (target_outcome lib S K T r q market_price option_type) s,
       log ++ map PricerCall sigmas).
Proof.
  induction s as [result | x next IH]; intro log; simpl.
  - exists []. simpl. rewrite app_nil_r. reflexivity.
  - unfold bind. rewrite target_fn_run.
    destruct (target_outcome lib S K T r q market_price option_type x) as [y | e].
    + destruct (IH y (log ++ [PricerCall x])) as [sigmas Hs].
      exists (x :: sigmas). rewrite Hs, <- app_assoc. reflexivity.
    + exists [x]. reflexivity.
Qed.

(** Line 31: the guard returns [nan] and touches nothing. *)
Lemma implied_volatility_guard (tol : float) (max_iter : Z) (log : list event) :
  (T <=? 0) || (market_price <=? 0) = true ->
  implied_volatility lib brentq S K T r q market_price option_type tol max_iter log
  = (Return nan, log).
Proof. intro G. unfold implied_volatility. rewrite G. reflexivity. Qed.

(** Lines 37 to 40: one search on [1e-6, 200]; its root is returned, and
    either exception class becomes [nan]. *)
Lemma implied_volatility_search (tol : float) (max_iter : Z) (log : list event) :
  non_degenerate T market_price ->
  exists sigmas : list float,
    implied_volatility lib brentq S K T r q market_price option_type tol max_iter log
    = (match search_outcome lib brentq S K T r q market_price option_type tol max_iter with
       | Return x => Return x
       | Raise _ => Return nan
       end,
       log ++ RootSearch 1e-6 200 tol max_iter :: map PricerCall sigmas).
Proof.
  intro G. unfold non_degenerate in G.
  unfold implied_volatility. rewrite G.
  unfold try_except, call_brentq, bind, emit.
  destruct (run_search_target (brentq 1e-6 200 tol max_iter)
              (log ++ [RootSearch 1e-6 200 tol max_iter])) as [sigmas Hs].
  exists sigmas. rewrite Hs. unfold search_outcome.
  rewrite <- app_assoc. simpl.
  destruct (run_outcome _ _) as [x | [ | ]]; reflexivity.
Qed.

End SolverFacts.

(** Against a target that never raises, [run_outcome] is [run_pure]. *)
Lemma run_outcome_pure (g : float -> float) (s : search) :
  run_outcome (fun x => Return (g x)) s = run_pure g s.
Proof. induction s as [result | x next IH]; simpl; [reflexivity | apply IH]. Qed.

Lemma run_outcome_ext (g1 g2 : float -> outcome float) (s : search) :
  (forall x, g1 x = g2 x) -> run_outcome g1 s = run_outcome g2 s.
Proof.
  intro E. induction s as [result | x next IH]; simpl; [reflexivity |].
  rewrite E. destruct (g2 x); [apply IH | reflexivity].
Qed.

(** Whether the pricer raises depends on the option type alone. *)
Lemma target_outcome_total lib S K T r q market_price option_type sigma0 y0 :
  target_outcome lib S K T r q market_price option_type sigma0 = Return y0 ->
  forall sigma, exists y,
    target_outcome lib S K T r q market_price option_type sigma = Return y.
Proof.
  unfold target_outcome, option_price. intros H sigma.
  destruct (String.eqb option_type "c"); [eexists; reflexivity |].
  destruct (String.eqb option_type "p"); [eexists; reflexivity | discriminate H].
Qed.

Lemma run_outcome_raising (g : float -> outcome float) (e : exn) (s : search) :
  (forall x, g x = Raise e) ->
  run_outcome g s = Raise e \/ exists result, s = Stop result.
Proof.
  intro H. destruct s as [result | x next]; simpl.
  - right. exists result. reflexivity.
  - left. rewrite H. reflexivity.
Qed.

(** The sample root finder meets both assumptions. *)
Lemma bisect_rejects_same_sign : rejects_same_sign Sample.bisect.
Proof.
  intros g a b xtol maxiter H. unfold Sample.bisect.
  destruct (xtol <=? 0)%float; simpl; [reflexivity |].
  rewrite H. reflexivity.
Qed.

Lemma bisect_evaluates_before_returning : evaluates_before_returning Sample.bisect.
Proof.
  intros a b xtol maxiter x. unfold Sample.bisect.
  destruct (xtol <=? 0)%float; discriminate.
Qed.

(** ** Claims about the solver *)

(** C2.  When [time_to_expiration <= 0] or [market_price <= 0],
    [implied_volatility] returns the undefined result, [nan], at once: the
    log of calls is returned as it was received, so neither the pricer nor a
    root search was invoked.  This holds whatever the library routines and
    the root finder are. *)
Theorem degenerate_input_is_undefined :
  forall (lib : Libm) (brentq : root_finder) (S K T r q market_price : float)
         (option_type : string) (tol : float) (max_iter : Z) (log : list event),
    (T <=? 0)%float = true \/ (market_price <=? 0)%float = true ->
    implied_volatility lib brentq S K T r q market_price option_type tol max_iter log
    = (Return nan, log).
Proof.
  intros lib brentq S K T r q market_price option_type tol max_iter log H.
  apply implied_volatility_guard.
  destruct H as [H | H]; rewrite H; [reflexivity | apply orb_true_r].
Qed.

(** The three inputs the specification names: expiry at [T = 0], and market
    prices [0] and [-1]. *)
Lemma degenerate_input_is_undefined_witness :
  implied_volatility_default Sample.lib Sample.bisect 100 100 0 0.04 0.01 5 []
  = (Return nan, [])
  /\ implied_volatility_default Sample.lib Sample.bisect 100 100 0.5 0.04 0.01 0 []
     = (Return nan, [])
  /\ implied_volatility_default Sample.lib Sample.bisect 100 100 0.5 0.04 0.01 (-1) []
     = (Return nan, []).
Proof.
  split; [| split]; apply degenerate_input_is_undefined;
    first [left; reflexivity | right; reflexivity].
Defined.

(** C3.  On a non-degenerate input where the target has one strict sign at
    both ends of the bracket, or where the search ends in [RuntimeError]
    (no convergence within [max_iter]), [implied_volatility] returns
    normally, its value is [nan], and the log shows exactly one root search,
    on the bracket [1e-6, 200], followed by pricer calls only: no exception
    escapes, no number is made up, no second bracket is tried.  That scipy's
    [brentq] answers equal signs with [ValueError] is the hypothesis
    [rejects_same_sign]. *)
Theorem failed_search_is_undefined :
  forall (lib : Libm) (brentq : root_finder),
    rejects_same_sign brentq ->
    forall (S K T r q market_price : float) (option_type : string)
           (tol : float) (max_iter : Z) (log : list event),
      (0 <? T)%float = true ->
      (0 <? market_price)%float = true ->
      no_sign_change lib S K T r q market_price option_type
      \/ search_outcome lib brentq S K T r q market_price option_type tol max_iter
         = Raise RuntimeError ->
      exists sigmas : list float,
        implied_volatility lib brentq S K T r q market_price option_type tol max_iter log
        = (Return nan,
           log ++ RootSearch 1e-6 200 tol max_iter :: map PricerCall sigmas).
Proof.
  intros lib brentq Hsign S K T r q market_price option_type tol max_iter log HT Hm H.
  pose proof (positive_is_non_degenerate T market_price HT Hm) as G.
  destruct (implied_volatility_search lib brentq S K T r q market_price option_type
              tol max_iter log G) as [sigmas Hrun].
  exists sigmas. rewrite Hrun. f_equal.
  assert (E : search_outcome lib brentq S K T r q market_price option_type tol max_iter
              = Raise ValueError
              \/ search_outcome lib brentq S K T r q market_price option_type tol max_iter
                 = Raise RuntimeError).
  { destruct H as [(ya & yb & Ha & Hb & Hs) | H]; [left | right; exact H].
    set (t := target_outcome lib S K T r q market_price option_type) in *.
    set (g := fun x => match t x with Return y => y | Raise _ => nan end).
    assert (Et : forall x, t x = Return (g x)).
    { intro x. unfold g.
      destruct (target_outcome_total lib S K T r q market_price option_type _ _ Ha x)
        as [y Hy].
      fold t in Hy. rewrite Hy. reflexivity. }
    unfold search_outcome. fold t.
    rewrite (run_outcome_ext t (fun x => Return (g x)) _ Et), run_outcome_pure.
    apply Hsign. unfold g. rewrite Ha, Hb. exact Hs. }
  destruct E as [E | E]; rewrite E; reflexivity.
Qed.

(** A market price of twice the spot for an at-the-money call: the target is
    negative at both ends of the bracket. *)
Lemma failed_search_is_undefined_witness :
  exists sigmas : list float,
    implied_volatility Sample.lib Sample.bisect 100 100 0.5 0.04 0.01 200 "c" 1e-6 100 []
    = (Return nan, [] ++ RootSearch 1e-6 200 1e-6 100 :: map PricerCall sigmas).
Proof.
  apply (failed_search_is_undefined Sample.lib Sample.bisect bisect_rejects_same_sign).
  - reflexivity.
  - reflexivity.
  - left. eexists. eexists.
    split; [vm_compute; reflexivity |].
    split; [vm_compute; reflexivity |].
    vm_compute; reflexivity.
Defined.

(** C10.  With an option type that is neither ["c"] nor ["p"] and a
    non-degenerate input, every call of the target raises the pricer's
    [ValueError], and [implied_volatility] does not pass it on: the handler
    catches it and the call returns [nan], the result of a failed search.
    The hypothesis says that the root finder does not return a root before it
    has evaluated the function. *)
Theorem invalid_option_type_is_absorbed :
  forall (lib : Libm) (brentq : root_finder),
    evaluates_before_returning brentq ->
    forall (S K T r q market_price : float) (option_type : string)
           (tol : float) (max_iter : Z) (log : list event),
      (0 <? T)%float = true ->
      (0 <? market_price)%float = true ->
      option_type <> "c"%string ->
      option_type <> "p"%string ->
      (forall (sigma : float) (log' : list event),
          fst (target_fn lib S K T r q market_price option_type sigma log')
          = Raise ValueError)
      /\ exists sigmas : list float,
          implied_volatility lib brentq S K T r q market_price option_type tol max_iter log
          = (Return nan,
             log ++ RootSearch 1e-6 200 tol max_iter :: map PricerCall sigmas).
Proof.
  intros lib brentq Hev S K T r q market_price option_type tol max_iter log HT Hm Hc Hp.
  pose proof (positive_is_non_degenerate T market_price HT Hm) as G.
  assert (Ht : forall sigma,
             target_outcome lib S K T r q market_price option_type sigma
             = Raise ValueError).
  { intro sigma. unfold target_outcome.
    rewrite (option_price_other S K T r sigma q option_type Hc Hp). reflexivity. }
  split.
  - intros sigma log'. rewrite target_fn_run. simpl. apply Ht.
  - destruct (implied_volatility_search lib brentq S K T r q market_price option_type
                tol max_iter log G) as [sigmas Hrun].
    exists sigmas. rewrite Hrun. f_equal.
    unfold search_outcome.
    destruct (run_outcome_raising _ ValueError (brentq 1e-6 200 tol max_iter) Ht)%float
      as [E | [result E]].
    + rewrite E. reflexivity.
    + rewrite E. simpl. destruct result as [x | e]; [| reflexivity].
      exfalso. exact (Hev _ _ _ _ _ E).
Qed.

Lemma invalid_option_type_is_absorbed_witness :
  (forall (sigma : float) (log' : list event),
      fst (target_fn Sample.lib 100 100 0.5 0.04 0.01 5 "x" sigma log') = Raise ValueError)
  /\ exists sigmas : list float,
      implied_volatility Sample.lib Sample.bisect 100 100 0.5 0.04 0.01 5 "x" 1e-6 100 []
      = (Return nan, [] ++ RootSearch 1e-6 200 1e-6 100 :: map PricerCall sigmas).
Proof.
  apply (invalid_option_type_is_absorbed Sample.lib Sample.bisect
           bisect_evaluates_before_returning);
    [reflexivity | reflexivity | discriminate | discriminate].
Defined.



(** ** Running the embedding

    The solver executed with the sample library, on the scenario of the
    specification: spot and strike [100], one year, [r = 0.05], [q = 0],
    volatility [0.2].  These runs exercise the embedding; what they show is
    the sample arithmetic, not numpy's. *)

Section SampleRuns.
Local Open Scope float_scope.

Example sample_scenario_price :
  exists p : float,
    @option_price float (binary64 Sample.lib) 100 100 1 0.05 0.2 0 "c" = Return p
    /\ (10.4505 <? p) && (p <? 10.4507) = true.
Proof. eexists. split; vm_compute; reflexivity. Qed.

Example sample_round_trip :
  exists (x : float) (log : list event),
    implied_volatility_default Sample.lib Sample.bisect 100 100 1 0.05 0
      10.450583572186403 []
    = (Return x, log)
    /\ (abs (x - 0.2) <? 1e-4) = true
    /\ length log = 31%nat.
Proof. eexists. eexists. split; [vm_compute; reflexivity | split; vm_compute; reflexivity]. Qed.

(** Three iterations do not suffice on this bracket: the search gives up and
    the handler answers [nan]. *)
Example sample_search_exhausted :
  fst (implied_volatility Sample.lib Sample.bisect 100 100 1 0.05 0
         10.450583572186403 "c" 1e-6 3 [])
  = Return nan.
Proof. vm_compute. reflexivity. Qed.

End SampleRuns.

(* ================================================================== *)
(** * Part III.  Further properties *)
(* ================================================================== *)

From Stdlib Require Import Lia.

(** ** The pricer as a function of its arguments, over the reals *)



Section PricerFurther.
Local Open Scope R_scope.















End PricerFurther.

(** ** The solver, further *)

(** The points a search asks for when it runs against [g], in order. *)
Fixpoint queries (g : float -> outcome float) (s : search) : list float :=
  match s with
  | Stop _ => []
  | Ask x next =>
      x :: match g x with
           | Return y => queries g (next y)
           | Raise _ => []
           end
  end.

Section SolverFurther.
Local Open Scope float_scope.

Lemma is_nan_Prim2SF (x : float) :
  is_nan x = match Prim2SF x with S754_nan => true | _ => false end.
Proof.
  unfold is_nan. rewrite FloatAxioms.eqb_spec. unfold SFeqb.
  destruct (Prim2SF x) as [s | s | | s m e]; simpl; try reflexivity.
  - destruct s; reflexivity.
  - destruct s; rewrite Z.compare_refl, Pos.compare_cont_refl; reflexivity.
Qed.

(** [x <= 0] fails exactly on the positive numbers and on [nan]. *)
Lemma not_le_zero_iff (x : float) :
  (x <=? 0) = false <-> (0 <? x) = true \/ is_nan x = true.
Proof.
  rewrite is_nan_Prim2SF, FloatAxioms.ltb_spec, FloatAxioms.leb_spec.
  replace (Prim2SF 0) with (S754_zero false) by reflexivity.
  unfold SFleb, SFltb.
  destruct (Prim2SF x) as [s | s | | s m e]; simpl; try destruct s; simpl;
    intuition discriminate.
Qed.

Lemma run_search_queries lib S K T r q market_price option_type (s : search) :
  forall log,
    run_search (target_fn lib S K T r q market_price option_type) s log
    = (run_outcome (target_outcome lib S K T r q market_price option_type) s,
       log ++ map PricerCall
                (queries (target_outcome lib S K T r q market_price option_type) s)).
Proof.
  induction s as [result | x next IH]; intro log; simpl.
  - rewrite app_nil_r. reflexivity.
  - unfold bind. rewrite target_fn_run.
    destruct (target_outcome lib S K T r q market_price option_type x) as [y | e].
    + rewrite IH, <- app_assoc. reflexivity.
    + reflexivity.
Qed.

Lemma implied_volatility_run lib brentq S K T r q market_price option_type tol max_iter log :
  non_degenerate T market_price ->
  implied_volatility lib brentq S K T r q market_price option_type tol max_iter log
  = (match search_outcome lib brentq S K T r q market_price option_type tol max_iter with
     | Return x => Return x
     | Raise _ => Return nan
     end,
     log ++ RootSearch 1e-6 200 tol max_iter
         :: map PricerCall
              (queries (target_outcome lib S K T r q market_price option_type)
                 (brentq 1e-6 200 tol max_iter))).
Proof.
  intro G. unfold non_degenerate in G.
  unfold implied_volatility. rewrite G.
  unfold try_except, call_brentq, bind, emit.
  rewrite run_search_queries. unfold search_outcome.
  rewrite <- app_assoc. simpl.
  destruct (run_outcome _ _) as [x | [ | ]]; reflexivity.
Qed.



(** X7.  The guard of line 30 does not stop [nan]: a time to expiration or a
    market price that is [nan] compares false with [<= 0], so the call goes
    on to the root search as it does for a positive value. *)
Theorem nan_input_reaches_the_search :
  forall (lib : Libm) (brentq : root_finder) (S K T r q market_price : float)
         (option_type : string) (tol : float) (max_iter : Z) (log : list event),
    (0 <? T) = true \/ is_nan T = true ->
    (0 <? market_price) = true \/ is_nan market_price = true ->
    exists sigmas : list float,
      snd (implied_volatility lib brentq S K T r q market_price option_type tol max_iter log)
      = log ++ RootSearch 1e-6 200 tol max_iter :: map PricerCall sigmas.
Proof.
  intros lib brentq S K T r q market_price option_type tol max_iter log HT Hm.
  apply not_le_zero_iff in HT. apply not_le_zero_iff in Hm.
  eexists. rewrite implied_volatility_run.
  - reflexivity.
  - unfold non_degenerate. rewrite HT, Hm. reflexivity.
Qed.

Lemma nan_input_reaches_the_search_witness :
  exists sigmas : list float,
    snd (implied_volatility Sample.lib Sample.bisect 100 100 nan 0.04 0.01 5 "c" 1e-6 100 [])
    = [] ++ RootSearch 1e-6 200 1e-6 100 :: map PricerCall sigmas.
Proof.
  apply nan_input_reaches_the_search; [right | left]; reflexivity.
Defined.

End SolverFurther.

(** ** The caller: the table of [app.py]

    Lines 53 to 100 of [app.py] build the table the surface is drawn from.
    A pandas frame is read as the list of its rows, a boolean mask as
    [filter], [pd.concat] as [++], the row-wise [apply] as a left-to-right
    traversal, [dropna] as the filter on [is_nan].  What comes from the data
    provider is the input: for each expiration its distance in days from the
    last close, [(exp - close_date).days], and its calls table.

    When no row is selected pandas does not call the function of [apply], and
    what the assignment of line 81 then does is pandas' affair: the
    statements about [surface_points] are for a table with a row in it. *)
Module App.

Record quote : Type := {
  strike : float;
  bid : float;
  ask : float;
  lastPrice : float
}.

(** A row of [calls_data]: the columns [strike], [moneyness], [days_to_exp]
    and [market_price]. *)
Record selected : Type := {
  row_strike : float;
  moneyness : float;
  days_to_exp : Z;
  market_price : float
}.

(** [days / 365] on an integer number of days: the integer as a float,
    divided in binary64. *)
Definition years (days : Z) : float :=
  (of_uint63 (Uint63.of_Z days) / 365)%float.



Section Table.
Local Open Scope float_scope.
Variable lib : Libm.
Variable brentq : root_finder.
Variable close_price : float.
Variables risk_free_rate div_yield : float.
Variables min_moneyness max_moneyness : float.

(** Line 62. *)
Definition mid (c : quote) : float := (ask c + bid c) / 2.

(** Lines 59 to 72, for one expiration: nothing when it is less than seven
    days away; otherwise the quotes with [mid > 0] whose moneyness lies in
    the band. *)
Definition select (days : Z) (option_chain : list quote) : list selected :=
  if (days <? 7)%Z then []
  else
    map (fun c => {| row_strike := strike c;
                     moneyness := strike c / close_price;
                     days_to_exp := days;
                     market_price := mid c |})
      (filter (fun c => (strike c / close_price <=? max_moneyness)
                        && (min_moneyness <=? strike c / close_price))
         (filter (fun c => 0 <? mid c) option_chain)).

(** The loop of lines 53 to 79. *)
Definition calls_data (chains : list (Z * list quote)) : list selected :=
  flat_map (fun chain => select (fst chain) (snd chain)) chains.

(** The call of lines 82 to 89 for one row. *)
Definition row_volatility (x : selected) : M float :=
  implied_volatility_default lib brentq close_price (row_strike x)
    (years (days_to_exp x)) risk_free_rate div_yield (market_price x).

(** Lines 81 to 92: the column [implied_volatility_(%)]. *)
Fixpoint implied_volatility_column (rows : list selected) : M (list float) :=
  match rows with
  | [] => ret []
  | x :: rest =>
      v <- row_volatility x ;;
      vs <- implied_volatility_column rest ;;
      ret (v * 100 :: vs)
  end.

(** Line 94. *)
Definition dropna (table : list (selected * float)) : list (selected * float) :=
  filter (fun row => negb (is_nan (snd row))) table.

(** Lines 98 to 100: the points [(x_data, y_data, z_data)]. *)
Definition surface_points (chains : list (Z * list quote))
  : M (list (float * float * float)) :=
  column <- implied_volatility_column (calls_data chains) ;;
  ret (map (fun row => (years (days_to_exp (fst row)), moneyness (fst row), snd row))
         (dropna (combine (calls_data chains) column))).

(** What the solver returns for a row, its log apart. *)
Definition row_value (x : selected) : float :=
  if (years (days_to_exp x) <=? 0) || (market_price x <=? 0) then nan
  else
    match search_outcome lib brentq close_price (row_strike x) (years (days_to_exp x))
            risk_free_rate div_yield (market_price x) "c" 1e-6 100 with
    | Return r => r
    | Raise _ => nan
    end.

End Table.

(** A check of [f] on [n] consecutive integers from [lo]. *)
Fixpoint all_from (f : Z -> bool) (lo : Z) (n : nat) : bool :=
  match n with
  | O => true
  | S n' => f lo && all_from f (lo + 1) n'
  end.

End App.

(** ** Binary64 facts the table needs *)

Section FloatFacts.
Local Open Scope float_scope.

Lemma shr_1_nonneg mrs : (0 <= shr_m mrs)%Z -> (0 <= shr_m (shr_1 mrs))%Z.
Proof.
  destruct mrs as [m r s]; simpl. intro H.
  destruct m as [ | p | p]; [simpl; lia | | lia].
  destruct p; simpl; lia.
Qed.

Lemma iter_shr_1_nonneg (p : positive) :
  forall mrs, (0 <= shr_m mrs)%Z ->
              (0 <= shr_m (@SpecFloat.iter_pos _ shr_1 p mrs))%Z.
Proof.
  induction p as [p IH | p IH | ]; intros mrs H; simpl.
  - apply IH, IH, shr_1_nonneg, H.
  - apply IH, IH, H.
  - apply shr_1_nonneg, H.
Qed.

Lemma shr_fexp_nonneg m e l :
  (0 <= m)%Z -> (0 <= shr_m (fst (shr_fexp prec emax m e l)))%Z.
Proof.
  intro H. unfold shr_fexp, shr.
  assert (H0 : (0 <= shr_m (shr_record_of_loc m l))%Z).
  { destruct l as [ | []]; simpl; exact H. }
  destruct (_ - e)%Z; simpl; try exact H0.
  apply iter_shr_1_nonneg, H0.
Qed.

Lemma round_nearest_even_nonneg m l : (0 <= m)%Z -> (0 <= round_nearest_even m l)%Z.
Proof.
  intro H. destruct l as [ | []]; simpl; try lia.
  destruct (Z.even m); lia.
Qed.

(** Rounding a non-negative mantissa never yields [nan]. *)
Lemma binary_round_aux_not_nan sx mx ex lx :
  (0 <= mx)%Z -> binary_round_aux prec emax sx mx ex lx <> S754_nan.
Proof.
  intro H. unfold binary_round_aux.
  pose proof (shr_fexp_nonneg mx ex lx H) as H1.
  destruct (shr_fexp prec emax mx ex lx) as [mrs' e']. simpl in H1.
  pose proof (shr_fexp_nonneg _ e' loc_Exact
                (round_nearest_even_nonneg _ (loc_of_shr_record mrs') H1)) as H2.
  destruct (shr_fexp prec emax _ e' loc_Exact) as [mrs'' e'']. simpl in H2.
  destruct (shr_m mrs'') as [ | m | m]; [discriminate | | lia].
  destruct (e'' <=? emax - prec)%Z; discriminate.
Qed.

(** The application's [* 100] keeps [nan] and makes none. *)
Lemma is_nan_times_100 (x : float) : is_nan (x * 100) = is_nan x.
Proof.
  rewrite !is_nan_Prim2SF, FloatAxioms.mul_spec. unfold SF64mul.
  replace (Prim2SF 100) with (S754_finite false 7036874417766400 (-46)) by reflexivity.
  destruct (Prim2SF x) as [s | s | | s m e]; simpl; try reflexivity.
  pose proof (binary_round_aux_not_nan (xorb s false)
                (Z.pos (m * 7036874417766400)) (e + -46) loc_Exact ltac:(lia)) as H.
  destruct (binary_round_aux _ _ _ _ _ _); try reflexivity. contradiction.
Qed.

Lemma all_from_spec (f : Z -> bool) (n : nat) :
  forall lo, App.all_from f lo n = true ->
  forall d, (lo <= d < lo + Z.of_nat n)%Z -> f d = true.
Proof.
  induction n as [ | n IH]; intros lo H d Hd; [lia |].
  simpl in H. apply andb_true_iff in H. destruct H as [H0 H1].
  destruct (Z.eq_dec d lo) as [-> | Hne]; [exact H0 |].
  apply (IH (lo + 1)%Z H1). lia.
Qed.

(** From seven days up to the largest distance a pandas [Timedelta] holds,
    [days / 365] is positive.  Checked on every integer of the range. *)
Lemma years_positive (days : Z) :
  (7 <= days <= 106751)%Z -> (0 <? App.years days) = true.
Proof.
  intro H.
  apply (all_from_spec (fun d => 0 <? App.years d) (Z.to_nat 106745) 7).
  - vm_compute. reflexivity.
  - lia.
Qed.

End FloatFacts.

(** ** The table *)

Section TableFacts.
Local Open Scope float_scope.
Variable lib : Libm.
Variable brentq : root_finder.
Variable close_price : float.
Variables risk_free_rate div_yield : float.
Variables min_moneyness max_moneyness : float.

Local Abbreviation row_volatility := (App.row_volatility lib brentq close_price risk_free_rate div_yield).
Local Abbreviation row_value := (App.row_value lib brentq close_price risk_free_rate div_yield).
Local Abbreviation column := (App.implied_volatility_column lib brentq close_price risk_free_rate div_yield).
Local Abbreviation calls_data := (App.calls_data close_price min_moneyness max_moneyness).
Local Abbreviation select := (App.select close_price min_moneyness max_moneyness).

Lemma row_volatility_value (x : App.selected) (log : list event) :
  fst (row_volatility x log) = Return (row_value x).
Proof.
  unfold App.row_volatility, implied_volatility_default, App.row_value.
  destruct ((App.years (App.days_to_exp x) <=? 0) || (App.market_price x <=? 0)) eqn:G.
  - rewrite implied_volatility_guard by exact G. reflexivity.
  - rewrite implied_volatility_run by exact G. simpl.
    destruct (search_outcome _ _ _ _ _ _ _ _ _ _ _); reflexivity.
Qed.


Lemma column_value (rows : list App.selected) :
  forall log,
    fst (column rows log) = Return (map (fun x => row_value x * 100) rows).
Proof.
  induction rows as [ | x rest IH]; intro log; [reflexivity |].
  simpl. unfold bind.
  pose proof (row_volatility_value x log) as Hx.
  destruct (row_volatility x log) as [o log1]. simpl in Hx. subst o.
  specialize (IH log1).
  destruct (column rest log1) as [o log2]. simpl in IH. subst o.
  reflexivity.
Qed.


Lemma select_In (days : Z) (option_chain : list App.quote) (x : App.selected) :
  In x (select days option_chain) ->
  (7 <= days)%Z
  /\ App.days_to_exp x = days
  /\ exists c, In c option_chain
       /\ App.row_strike x = App.strike c
       /\ App.moneyness x = App.strike c / close_price
       /\ App.market_price x = App.mid c
       /\ (0 <? App.mid c) = true
       /\ (App.strike c / close_price <=? max_moneyness) = true
       /\ (min_moneyness <=? App.strike c / close_price) = true.
Proof.
  unfold App.select. destruct (days <? 7)%Z eqn:D; [intros [] |].
  intro H. apply in_map_iff in H. destruct H as (c & <- & Hc).
  apply filter_In in Hc. destruct Hc as [Hc B].
  apply filter_In in Hc. destruct Hc as [Hc P].
  apply andb_true_iff in B. destruct B as [B1 B2].
  apply Z.ltb_ge in D.
  split; [exact D |]. split; [reflexivity |].
  exists c. repeat split; assumption.
Qed.

Lemma combine_map_self {A B : Type} (g : A -> B) (l : list A) :
  combine l (map g l) = map (fun x => (x, g x)) l.
Proof. induction l as [ | a l IH]; simpl; [reflexivity | rewrite IH; reflexivity]. Qed.

(** Every row of [calls_data] comes from an expiration at least seven days
    away, has a positive market price and a moneyness inside the band, and,
    for distances a pandas [Timedelta] can hold, a positive time in years. *)
Lemma calls_data_In (chains : list (Z * list App.quote)) (x : App.selected) :
  Forall (fun chain => (fst chain <= 106751)%Z) chains ->
  In x (calls_data chains) ->
  (7 <= App.days_to_exp x)%Z
  /\ (0 <? App.years (App.days_to_exp x)) = true
  /\ (0 <? App.market_price x) = true
  /\ (App.moneyness x <=? max_moneyness) = true
  /\ (min_moneyness <=? App.moneyness x) = true.
Proof.
  intros Hb H. unfold App.calls_data in H. apply in_flat_map in H.
  destruct H as (chain & Hc & Hx).
  rewrite Forall_forall in Hb. specialize (Hb chain Hc).
  apply select_In in Hx.
  destruct Hx as (Hd & Ed & c & _ & _ & Em & Ep & P & B1 & B2).
  rewrite Ed, Em, Ep.
  split; [exact Hd |]. split; [apply years_positive; lia |].
  repeat split; assumption.
Qed.

End TableFacts.

(** ** Properties of the table *)

Section TableProperties.
Local Open Scope float_scope.


(** X9.  What is drawn is what was found.  On a table with a row in it the
    call of [surface_points] returns,
    and each of its points belongs to a row of [calls_data]: its height is
    100 times the root the search returned for that row, and that root is
    not [nan].  No undefined result survives line 94. *)
Theorem plotted_points_are_roots :
  forall (lib : Libm) (brentq : root_finder)
         (close_price risk_free_rate div_yield min_moneyness max_moneyness : float)
         (chains : list (Z * list App.quote)) (log : list event),
    App.calls_data close_price min_moneyness max_moneyness chains <> [] ->
    exists points : list (float * float * float),
      fst (App.surface_points lib brentq close_price risk_free_rate div_yield
             min_moneyness max_moneyness chains log)
      = Return points
      /\ forall t m z : float,
          In (t, m, z) points ->
          exists (x : App.selected) (root : float),
            In x (App.calls_data close_price min_moneyness max_moneyness chains)
            /\ t = App.years (App.days_to_exp x)
            /\ m = App.moneyness x
            /\ z = root * 100
            /\ is_nan root = false
            /\ is_nan z = false
            /\ search_outcome lib brentq close_price (App.row_strike x)
                 (App.years (App.days_to_exp x)) risk_free_rate div_yield
                 (App.market_price x) "c" 1e-6 100
               = Return root.
Proof.
  intros lib brentq close_price risk_free_rate div_yield min_moneyness max_moneyness
         chains log _.
  set (rows := App.calls_data close_price min_moneyness max_moneyness chains).
  set (value := App.row_value lib brentq close_price risk_free_rate div_yield).
  eexists. split.
  - unfold App.surface_points, bind. fold rows.
    pose proof (column_value lib brentq close_price risk_free_rate div_yield rows log) as Hv.
    destruct (App.implied_volatility_column _ _ _ _ _ rows log) as [o log1].
    simpl in Hv. subst o. simpl. reflexivity.
  - intros t m z H. fold value in H.
    rewrite combine_map_self in H.
    apply in_map_iff in H. destruct H as ([x v] & E & H). simpl in E.
    apply filter_In in H. destruct H as [H N]. simpl in N.
    apply in_map_iff in H. destruct H as (x' & E' & Hx).
    inversion E'; subst x' v; clear E'. inversion E; subst t m z; clear E.
    apply negb_true_iff in N. rewrite is_nan_times_100 in N.
    exists x, (value x). split; [exact Hx |].
    split; [reflexivity |]. split; [reflexivity |]. split; [reflexivity |].
    split; [exact N |]. split; [rewrite is_nan_times_100; exact N |].
    unfold value, App.row_value in N |- *.
    destruct ((App.years (App.days_to_exp x) <=? 0) || (App.market_price x <=? 0));
      [discriminate N |].
    destruct (search_outcome _ _ _ _ _ _ _ _ _ _ _) as [root | e];
      [reflexivity | discriminate N].
Qed.

(** X10.  And what was found is drawn.  For every row of [calls_data] whose search
    returned a root that is not [nan], the point of that row, at 100 times
    the root, is among the points of [surface_points]. *)
Theorem roots_are_plotted :
  forall (lib : Libm) (brentq : root_finder)
         (close_price risk_free_rate div_yield min_moneyness max_moneyness : float)
         (chains : list (Z * list App.quote)) (log : list event),
    Forall (fun chain => (fst chain <= 106751)%Z) chains ->
    App.calls_data close_price min_moneyness max_moneyness chains <> [] ->
    exists points : list (float * float * float),
      fst (App.surface_points lib brentq close_price risk_free_rate div_yield
             min_moneyness max_moneyness chains log)
      = Return points
      /\ forall (x : App.selected) (root : float),
          In x (App.calls_data close_price min_moneyness max_moneyness chains) ->
          search_outcome lib brentq close_price (App.row_strike x)
            (App.years (App.days_to_exp x)) risk_free_rate div_yield
            (App.market_price x) "c" 1e-6 100
          = Return root ->
          is_nan root = false ->
          In (App.years (App.days_to_exp x), App.moneyness x, root * 100) points.
Proof.
  intros lib brentq close_price risk_free_rate div_yield min_moneyness max_moneyness
         chains log Hb _.
  set (rows := App.calls_data close_price min_moneyness max_moneyness chains).
  set (value := App.row_value lib brentq close_price risk_free_rate div_yield).
  eexists. split.
  - unfold App.surface_points, bind. fold rows.
    pose proof (column_value lib brentq close_price risk_free_rate div_yield rows log) as Hv.
    destruct (App.implied_volatility_column _ _ _ _ _ rows log) as [o log1].
    simpl in Hv. subst o. simpl. reflexivity.
  - intros x root Hx Hs N. fold value.
    rewrite combine_map_self.
    destruct (calls_data_In close_price min_moneyness max_moneyness chains x Hb Hx)
      as (_ & HT & Hm & _).
    assert (V : value x = root).
    { unfold value, App.row_value.
      rewrite (positive_is_non_degenerate _ _ HT Hm), Hs. reflexivity. }
    apply in_map_iff. exists (x, root * 100). split; [reflexivity |].
    apply filter_In. split.
    + apply in_map_iff. exists x. split; [rewrite V; reflexivity | exact Hx].
    + simpl. rewrite is_nan_times_100, N. reflexivity.
Qed.

(** X11.  Every point drawn lies inside the moneyness band and comes from an
    expiration at least seven days out. *)
Theorem plotted_points_lie_in_band :
  forall (lib : Libm) (brentq : root_finder)
         (close_price risk_free_rate div_yield min_moneyness max_moneyness : float)
         (chains : list (Z * list App.quote)) (log : list event),
    App.calls_data close_price min_moneyness max_moneyness chains <> [] ->
    exists points : list (float * float * float),
      fst (App.surface_points lib brentq close_price risk_free_rate div_yield
             min_moneyness max_moneyness chains log)
      = Return points
      /\ forall t m z : float,
          In (t, m, z) points ->
          (m <=? max_moneyness) = true
          /\ (min_moneyness <=? m) = true
          /\ exists days : Z, (7 <= days)%Z /\ t = App.years days.
Proof.
  intros lib brentq close_price risk_free_rate div_yield min_moneyness max_moneyness
         chains log _.
  set (rows := App.calls_data close_price min_moneyness max_moneyness chains).
  eexists. split.
  - unfold App.surface_points, bind. fold rows.
    pose proof (column_value lib brentq close_price risk_free_rate div_yield rows log) as Hv.
    destruct (App.implied_volatility_column _ _ _ _ _ rows log) as [o log1].
    simpl in Hv. subst o. simpl. reflexivity.
  - intros t m z H.
    rewrite combine_map_self in H.
    apply in_map_iff in H. destruct H as ([x v] & E & H). simpl in E.
    apply filter_In in H. destruct H as [H _].
    apply in_map_iff in H. destruct H as (x' & E' & Hx).
    inversion E'; subst x' v; clear E'. inversion E; subst t m z; clear E.
    unfold rows, App.calls_data in Hx. apply in_flat_map in Hx.
    destruct Hx as (chain & _ & Hx). apply select_In in Hx.
    destruct Hx as (Hd & Ed & c & _ & _ & Em & _ & _ & B1 & B2).
    rewrite Em. split; [exact B1 |]. split; [exact B2 |].
    exists (fst chain). split; [exact Hd | rewrite Ed; reflexivity].
Qed.

End TableProperties.

(** ** The table on sample quotes

    Three expirations: one three days out, which line 59 skips; one thirty
    days out with a quote in the band, one outside it, one without a bid and
    one with an empty book; one at half a year with a quote the search
    inverts and one priced above the spot, which no volatility reproduces. *)
Section SampleTable.
Local Open Scope float_scope.

Definition sample_chains : list (Z * list App.quote) :=
  [ (3%Z,   [ {| App.strike := 100; App.bid := 0.9; App.ask := 1.1; App.lastPrice := 1 |} ]);
    (30%Z,  [ {| App.strike := 100; App.bid := 2.2; App.ask := 2.4; App.lastPrice := 2.3 |};
              {| App.strike := 150; App.bid := 0.01; App.ask := 0.03; App.lastPrice := 0.02 |};
              {| App.strike := 95; App.bid := nan; App.ask := 6.2; App.lastPrice := 6 |};
              {| App.strike := 105; App.bid := 0; App.ask := 0; App.lastPrice := 0.5 |} ]);
    (182%Z, [ {| App.strike := 110; App.bid := 2.9; App.ask := 3.1; App.lastPrice := 3 |};
              {| App.strike := 90; App.bid := 140; App.ask := 160; App.lastPrice := 150 |} ]) ].


Lemma plotted_points_are_roots_witness :
  exists points : list (float * float * float),
    fst (App.surface_points Sample.lib Sample.bisect 100 0.04 0.01 0.8 1.2 sample_chains [])
    = Return points
    /\ forall t m z : float,
        In (t, m, z) points ->
        exists (x : App.selected) (root : float),
          In x (App.calls_data 100 0.8 1.2 sample_chains)
          /\ t = App.years (App.days_to_exp x)
          /\ m = App.moneyness x
          /\ z = root * 100
          /\ is_nan root = false
          /\ is_nan z = false
          /\ search_outcome Sample.lib Sample.bisect 100 (App.row_strike x)
               (App.years (App.days_to_exp x)) 0.04 0.01 (App.market_price x) "c" 1e-6 100
             = Return root.
Proof. apply plotted_points_are_roots. discriminate. Defined.

Lemma plotted_points_lie_in_band_witness :
  exists points : list (float * float * float),
    fst (App.surface_points Sample.lib Sample.bisect 100 0.04 0.01 0.8 1.2 sample_chains [])
    = Return points
    /\ forall t m z : float,
        In (t, m, z) points ->
        (m <=? 1.2) = true
        /\ (0.8 <=? m) = true
        /\ exists days : Z, (7 <= days)%Z /\ t = App.years days.
Proof. apply plotted_points_lie_in_band. discriminate. Defined.

Lemma roots_are_plotted_witness :
  exists points : list (float * float * float),
    fst (App.surface_points Sample.lib Sample.bisect 100 0.04 0.01 0.8 1.2 sample_chains [])
    = Return points
    /\ forall (x : App.selected) (root : float),
        In x (App.calls_data 100 0.8 1.2 sample_chains) ->
        search_outcome Sample.lib Sample.bisect 100 (App.row_strike x)
          (App.years (App.days_to_exp x)) 0.04 0.01 (App.market_price x) "c" 1e-6 100
        = Return root ->
        is_nan root = false ->
        In (App.years (App.days_to_exp x), App.moneyness x, root * 100) points.
Proof.
  apply roots_are_plotted; [repeat constructor; simpl; lia | discriminate].
Defined.

(** Of the seven quotes three reach the solver, and two are drawn. *)
Example sample_table :
  length (App.calls_data 100 0.8 1.2 sample_chains) = 3%nat
  /\ exists z1 z2 : float,
      fst (App.surface_points Sample.lib Sample.bisect 100 0.04 0.01 0.8 1.2 sample_chains [])
      = Return [ (App.years 30, 1, z1); (App.years 182, 1.1, z2) ]
      /\ (15 <? z1) && (z1 <? 25) && (15 <? z2) && (z2 <? 25) = true.
Proof.
  split; [reflexivity |].
  eexists. eexists. split; vm_compute; reflexivity.
Qed.

End SampleTable.
